(** * forcast.py: a shallow embedding of the forecast dashboard script

    The script loads a table of per-area time series, lets the user pick one
    Area, filters and reshapes the table and composes a layered chart.  The
    development follows the script top to bottom: cell values and dates,
    rows and frames, the loader (lines 8-24), the selector (lines 36-46),
    the transformer (lines 49-75 and 94) and the chart composition
    (lines 80-129). *)

From Stdlib Require Import List String Ascii Bool ZArith QArith Lia.
From Stdlib Require Import Sorting.Sorted Sorting.Permutation.
Import ListNotations.

Local Open Scope string_scope.
Local Open Scope Z_scope.
Local Open Scope list_scope.

(** ** Cell values *)

(** A numeric cell of a float64 column.  The script never computes with the
    numbers: it only asks whether a cell is missing ([notna]) and passes the
    cell on.  A present cell is the rational it denotes, [None] is NaN. *)
Definition cell := option Q.

Definition notna (c : cell) : bool :=
  match c with
  | Some _ => true
  | None => false
  end.

(** A cell of the datetime64 column produced by [pd.to_datetime]: a point in
    time (nanoseconds since the epoch) or the missing marker NaT. *)
Inductive Timestamp : Type :=
  | NaT
  | Ts (ns : Z).

(** [a < b] on timestamps, as pandas evaluates it: any comparison with NaT is
    False. *)
Definition ts_ltb (a b : Timestamp) : bool :=
  match a, b with
  | Ts x, Ts y => x <? y
  | _, _ => false
  end.

Definition ts_lt (a b : Timestamp) : Prop :=
  match a, b with
  | Ts x, Ts y => x < y
  | _, _ => False
  end.

Definition ts_le (a b : Timestamp) : Prop :=
  match a, b with
  | Ts x, Ts y => x <= y
  | _, _ => False
  end.

(** [Series.min()] and [Series.max()] skip missing entries (skipna) and give
    NaT when nothing is left. *)
Definition ts_min2 (a b : Timestamp) : Timestamp :=
  match a, b with
  | NaT, _ => b
  | _, NaT => a
  | Ts x, Ts y => Ts (Z.min x y)
  end.

Definition ts_max2 (a b : Timestamp) : Timestamp :=
  match a, b with
  | NaT, _ => b
  | _, NaT => a
  | Ts x, Ts y => Ts (Z.max x y)
  end.

Definition series_min (s : list Timestamp) : Timestamp := fold_right ts_min2 NaT s.
Definition series_max (s : list Timestamp) : Timestamp := fold_right ts_max2 NaT s.

(** [Series.empty] / [DataFrame.empty] on a frame that has columns. *)
Definition empty {A : Type} (l : list A) : bool :=
  match l with
  | [] => true
  | _ :: _ => false
  end.

(** ** Rows and frames *)

(** A row of the loaded frame.  [Area] is the text of the Area cell: the
    development covers tables whose Area column is text in every row (an
    object column of [str]).  A column that [read_csv] reads as numbers, and
    a blank Area cell, are outside it. *)
Record Row : Type := mkRow {
  Area : string;
  Date : Timestamp;
  Actual : cell;
  Prophet_Train_Fitted : cell;
  Prophet_Forecast : cell;
  Auto_arima_forcasted : cell;
  Lower_95_CI : cell;
  Upper_95_CI : cell
}.

(** A frame is the list of its rows, in index order. *)
Definition DataFrame := list Row.

(** ** Transformer, part 1: filter and forecast start date *)

(** Line 49: [df[df['Area'] == selected_area].copy()]. *)
Definition filter_area (df : DataFrame) (selected_area : string) : DataFrame :=
  filter (fun r => String.eqb (Area r) selected_area) df.

(** Line 53: [df_filtered.loc[df_filtered['Prophet_Forecast'].notna(), 'Date']]. *)
Definition forecast_start_date_series (df_filtered : DataFrame) : list Timestamp :=
  map Date (filter (fun r => notna (Prophet_Forecast r)) df_filtered).

(** Line 61: [df_filtered[df_filtered['Date'] < min_forecast_date]['Date']]. *)
Definition previous_dates (df_filtered : DataFrame) (min_forecast_date : Timestamp)
  : list Timestamp :=
  map Date (filter (fun r => ts_ltb (Date r) min_forecast_date) df_filtered).

(** Lines 55-66.  [None] is Python's [None]. *)
Definition forecast_start_date (df_filtered : DataFrame) : option Timestamp :=
  let series := forecast_start_date_series df_filtered in
  if negb (empty series) then
    let min_forecast_date := series_min series in
    let previous := previous_dates df_filtered min_forecast_date in
    if negb (empty previous) then Some (series_max previous)
    else Some min_forecast_date
  else None.

(** ** Transformer, part 2: reshape and confidence-band subset *)

(** The value columns named in [melt_cols] (line 69).  All four are columns
    of [Row], so the look-up by name that [melt] performs cannot fail. *)
Inductive ValueColumn : Type :=
  | ColActual
  | ColProphetTrainFitted
  | ColProphetForecast
  | ColAutoArimaForcasted.

Definition column_name (c : ValueColumn) : string :=
  match c with
  | ColActual => "Actual"
  | ColProphetTrainFitted => "Prophet_Train_Fitted"
  | ColProphetForecast => "Prophet_Forecast"
  | ColAutoArimaForcasted => "Auto_arima_forcasted"
  end.

Definition column_value (c : ValueColumn) (r : Row) : cell :=
  match c with
  | ColActual => Actual r
  | ColProphetTrainFitted => Prophet_Train_Fitted r
  | ColProphetForecast => Prophet_Forecast r
  | ColAutoArimaForcasted => Auto_arima_forcasted r
  end.

Definition melt_cols : list ValueColumn :=
  [ColActual; ColProphetTrainFitted; ColProphetForecast; ColAutoArimaForcasted].

(** A row of the melted frame: the four [id_vars], then [Series] and
    [Value]. *)
Record LongRow : Type := mkLong {
  long_Area : string;
  long_Date : Timestamp;
  long_Lower_95_CI : cell;
  long_Upper_95_CI : cell;
  Series : string;
  Value : cell
}.

Definition long_row (c : ValueColumn) (r : Row) : LongRow :=
  {| long_Area := Area r;
     long_Date := Date r;
     long_Lower_95_CI := Lower_95_CI r;
     long_Upper_95_CI := Upper_95_CI r;
     Series := column_name c;
     Value := column_value c r |}.

(** Lines 70-75.  [DataFrame.melt] stacks one block per value column, in the
    order of [value_vars]; each block lists the rows in frame order. *)
Definition melt (df_filtered : DataFrame) : list LongRow :=
  flat_map (fun c => map (long_row c) df_filtered) melt_cols.

(** Line 94: [df_filtered.dropna(subset=['Prophet_Forecast'])]. *)
Definition dropna_Prophet_Forecast (df_filtered : DataFrame) : DataFrame :=
  filter (fun r => notna (Prophet_Forecast r)) df_filtered.

(** What the transformer hands to the renderer. *)
Record TransformerOutput : Type := mkOutput {
  out_df_filtered : DataFrame;
  out_forecast_start_date : option Timestamp;
  out_df_melted : list LongRow;
  out_df_ci : DataFrame
}.

Definition transformer_output (df : DataFrame) (selected_area : string)
  : TransformerOutput :=
  let df_filtered := filter_area df selected_area in
  {| out_df_filtered := df_filtered;
     out_forecast_start_date := forecast_start_date df_filtered;
     out_df_melted := melt df_filtered;
     out_df_ci := dropna_Prophet_Forecast df_filtered |}.

(** ** Selector *)

(** [Series.unique()]: the distinct values in order of first appearance. *)
Fixpoint unique (l : list string) : list string :=
  match l with
  | [] => []
  | x :: t => x :: filter (fun y => negb (String.eqb x y)) (unique t)
  end.

(** [sorted(...)] on strings.  Python orders [str] by code point, which is the
    byte order of the UTF-8 text that [String.leb] compares.  The sort is
    stable, as an insertion sort is. *)
Fixpoint insert_sorted (x : string) (l : list string) : list string :=
  match l with
  | [] => [x]
  | y :: t => if String.leb x y then x :: y :: t else y :: insert_sorted x t
  end.

Definition sorted (l : list string) : list string :=
  fold_right insert_sorted [] l.

(** Line 36. *)
Definition all_areas (df : DataFrame) : list string :=
  sorted (unique (map Area df)).

(** [st.sidebar.selectbox(label, options, index)]: the option the user picked
    in the widget, the option at [index] while the widget is untouched, and
    Python's [None] when there are no options.  [picked] is the position the
    user clicked, if any. *)
Definition selectbox (options : list string) (index : nat) (picked : option nat)
  : option string :=
  match picked with
  | Some i => nth_error options i
  | None => nth_error options index
  end.

(** Lines 39-43. *)
Definition selected_area (df : DataFrame) (picked : option nat) : option string :=
  selectbox (all_areas df) 0%nat picked.

(** Truth value of the selection in [if not selected_area] (line 45). *)
Definition truthy (v : option string) : bool :=
  match v with
  | Some s => negb (String.eqb s "")
  | None => false
  end.

(** ** Renderer: chart composition *)

(** The [oneOf] list of the stroke-dash condition (line 108). *)
Definition dashed_series : list string := ["Prophet_Forecast"; "Auto_arima_forcasted"].

(** Lines 107-111: [alt.condition(FieldOneOfPredicate(...), [5, 5], [1, 0])]
    evaluated on the [Series] field of a datum. *)
Definition stroke_dash (series : string) : list nat :=
  if existsb (String.eqb series) dashed_series then [5; 5]%nat else [1; 0]%nat.

(** One drawn line of the [mark_line] layer.  A field on the colour channel
    groups the data: each distinct value of [Series] gets its own line (and
    its own colour of the scale), made of the data rows that carry it. *)
Record LineMark : Type := mkLine {
  line_color_key : string;
  line_stroke_dash : list nat;
  line_points : list LongRow
}.

Definition line_marks (data : list LongRow) : list LineMark :=
  map (fun s =>
         {| line_color_key := s;
            line_stroke_dash := stroke_dash s;
            line_points := filter (fun p => String.eqb (Series p) s) data |})
      (unique (map Series data)).

(** The layers of the chart.  [ci_band] is the area mark over [df_ci]
    (lines 95-101), [lines] the line marks over [df_melted] (lines 104-113),
    [v_line] the rule at the forecast start (lines 117-124). *)
Inductive Layer : Type :=
  | ci_band (df_ci : DataFrame)
  | lines (df_melted : list LongRow)
  | v_line (forecast_start : Timestamp).

(** Lines 116-129.  [a + b + c] layers the charts in that order; a later
    layer is drawn over the earlier ones. *)
Definition chart (out : TransformerOutput) : list Layer :=
  match out_forecast_start_date out with
  | Some d => [ci_band (out_df_ci out); lines (out_df_melted out); v_line d]
  | None => [ci_band (out_df_ci out); lines (out_df_melted out)]
  end.

(** The points the shaded band is drawn through, and the positions of the
    vertical markers, of a composed chart. *)
Definition band_points (c : list Layer) : list Row :=
  flat_map (fun l => match l with ci_band d => d | _ => [] end) c.

Definition marker_positions (c : list Layer) : list Timestamp :=
  flat_map (fun l => match l with v_line d => [d] | _ => [] end) c.

Definition drawn_lines (c : list Layer) : list LineMark :=
  flat_map (fun l => match l with lines d => line_marks d | _ => [] end) c.

(** Position of the first layer satisfying [p], counted from the bottom. *)
Fixpoint layer_index (p : Layer -> bool) (c : list Layer) : option nat :=
  match c with
  | [] => None
  | l :: t => if p l then Some 0%nat else option_map S (layer_index p t)
  end.

Definition is_ci_band (l : Layer) : bool :=
  match l with ci_band _ => true | _ => false end.
Definition is_lines (l : Layer) : bool :=
  match l with lines _ => true | _ => false end.

(** What the page shows after lines 29-135 have run on a loaded frame. *)
Inductive Page : Type :=
  | PageBlank
  | PageWarning (message : string)
  | PageChart (title : string) (layers : list Layer) (raw_data_preview : DataFrame).

Definition page (df : DataFrame) (picked : option nat) : Page :=
  if negb (empty df) then
    let selection := selected_area df picked in
    if negb (truthy selection) then
      PageWarning "Please select an Area to display the chart."
    else
      match selection with
      | Some a =>
          let out := transformer_output df a in
          PageChart ("Forecast Analysis for " ++ a) (chart out) (out_df_filtered out)
      | None => PageWarning "Please select an Area to display the chart."
      end
  else PageBlank.

(** ** Loader *)

(** Python exceptions, by what the two [except] clauses of [load_data] can
    tell apart: [UnicodeDecodeError]; any other subclass of [Exception]
    (FileNotFoundError, ParserError, KeyError, ValueError, ...); and a
    [BaseException] outside [Exception] (KeyboardInterrupt, SystemExit). *)
Inductive PyExn : Type :=
  | UnicodeDecodeError (details : string)
  | OtherException (class details : string)
  | NonException (class details : string).

Definition is_Exception (e : PyExn) : bool :=
  match e with
  | NonException _ _ => false
  | _ => true
  end.

(** [str(e)] as interpolated into the error message. *)
Definition exn_details (e : PyExn) : string :=
  match e with
  | UnicodeDecodeError d => d
  | OtherException _ d => d
  | NonException _ d => d
  end.

(** A call either returns a value or raises. *)
Inductive Outcome (A : Type) : Type :=
  | Returns (a : A)
  | Raises (e : PyExn).
Arguments Returns {A} a.
Arguments Raises {A} e.

Inductive Encoding : Type :=
  | utf8
  | latin1.

(** A row as [read_csv] delivers it: the Date cell is still text, or missing. *)
Record RawRow : Type := mkRaw {
  raw_Area : string;
  raw_Date : option string;
  raw_Actual : cell;
  raw_Prophet_Train_Fitted : cell;
  raw_Prophet_Forecast : cell;
  raw_Auto_arima_forcasted : cell;
  raw_Lower_95_CI : cell;
  raw_Upper_95_CI : cell
}.

(** The frame [read_csv] returns: its column labels and its rows. *)
Record RawFrame : Type := mkRawFrame {
  raw_columns : list string;
  raw_rows : list RawRow
}.

Definition has_column (name : string) (f : RawFrame) : bool :=
  existsb (String.eqb name) (raw_columns f).

(** [df['Date'] = parsed]: the new column is aligned with the rows by
    position; a row without a partner gets the missing marker. *)
Fixpoint assign_Date (rows : list RawRow) (parsed : list Timestamp) : DataFrame :=
  match rows with
  | [] => []
  | r :: rest =>
      {| Area := raw_Area r;
         Date := hd NaT parsed;
         Actual := raw_Actual r;
         Prophet_Train_Fitted := raw_Prophet_Train_Fitted r;
         Prophet_Forecast := raw_Prophet_Forecast r;
         Auto_arima_forcasted := raw_Auto_arima_forcasted r;
         Lower_95_CI := raw_Lower_95_CI r;
         Upper_95_CI := raw_Upper_95_CI r |} :: assign_Date rest (tl parsed)
  end.

(** What a call of [load_data] leaves behind: the messages passed to
    [st.error], and the returned frame or the exception that escaped. *)
Record LoadResult : Type := mkLoad {
  load_errors : list string;
  load_outcome : Outcome DataFrame
}.

Definition error_message (e : PyExn) : string :=
  "Error: Could not load the file using standard encodings. Please check the file path and encoding. Details: "
  ++ exn_details e.

Section Loader.

(** The two library calls of the loader, as the environment answers them:
    [pd.read_csv(file_path, encoding=...)] on the file system at hand, and
    [pd.to_datetime] on a column of raw cells. *)
Variable read_csv : string -> Encoding -> Outcome RawFrame.
Variable to_datetime : list (option string) -> Outcome (list Timestamp).

(** Lines 22-24.  [df['Date']] raises KeyError when the frame has no such
    column; an exception of [to_datetime] is not caught. *)
Definition convert_Date (raw : RawFrame) : LoadResult :=
  if has_column "Date" raw then
    match to_datetime (map raw_Date (raw_rows raw)) with
    | Returns parsed =>
        {| load_errors := []; load_outcome := Returns (assign_Date (raw_rows raw) parsed) |}
    | Raises e => {| load_errors := []; load_outcome := Raises e |}
    end
  else
    {| load_errors := [];
       load_outcome := Raises (OtherException "KeyError" "'Date'") |}.

(** Lines 9-24. *)
Definition load_data (file_path : string) : LoadResult :=
  match read_csv file_path utf8 with
  | Returns raw => convert_Date raw
  | Raises (UnicodeDecodeError _) =>
      match read_csv file_path latin1 with
      | Returns raw => convert_Date raw
      | Raises e =>
          if is_Exception e then
            {| load_errors := [error_message e]; load_outcome := Returns [] |}
          else
            {| load_errors := []; load_outcome := Raises e |}
      end
  | Raises e => {| load_errors := []; load_outcome := Raises e |}
  end.

End Loader.

(** The file can be read under one of the two encodings the loader tries. *)
Definition readable (read_csv : string -> Encoding -> Outcome RawFrame)
    (file_path : string) (raw : RawFrame) : Prop :=
  read_csv file_path utf8 = Returns raw \/
  ((exists d, read_csv file_path utf8 = Raises (UnicodeDecodeError d)) /\
   read_csv file_path latin1 = Returns raw).

(** The frame has a Date column and [to_datetime] parses it. *)
Definition Date_parseable
    (to_datetime : list (option string) -> Outcome (list Timestamp))
    (raw : RawFrame) : Prop :=
  has_column "Date" raw = true /\
  exists parsed, to_datetime (map raw_Date (raw_rows raw)) = Returns parsed.

(** The loader hands back a frame with at least one row. *)
Definition returns_nonempty (r : LoadResult) : Prop :=
  exists df, load_outcome r = Returns df /\ empty df = false.

(** ** The script as a whole *)

(** Line 28. *)
Definition FILE_NAME : string := "Prophet_All_Areas_Forecast.xlsx".

(** A run of the script: an exception of the loader ends it at line 29;
    otherwise the page shows the loader's error messages and whatever lines
    31-135 put below them. *)
Inductive ScriptResult : Type :=
  | ScriptRaised (e : PyExn)
  | ScriptPage (errors : list string) (shown : Page).

(** Lines 29-135. *)
Definition run_script
    (read_csv : string -> Encoding -> Outcome RawFrame)
    (to_datetime : list (option string) -> Outcome (list Timestamp))
    (picked : option nat) : ScriptResult :=
  let loaded := load_data read_csv to_datetime FILE_NAME in
  match load_outcome loaded with
  | Raises e => ScriptRaised e
  | Returns df => ScriptPage (load_errors loaded) (page df picked)
  end.

Definition is_v_line (l : Layer) : bool :=
  match l with v_line _ => true | _ => false end.

(** ** Specification vocabulary for the forecast boundary *)

(** Some row of the frame carries a Prophet_Forecast value. *)
Definition has_forecast (f : DataFrame) : Prop :=
  exists r, In r f /\ notna (Prophet_Forecast r) = true.

(** [m] is the minimum Date among the rows that carry a Prophet_Forecast
    value.  Missing dates are passed over; [m] is NaT only when every such
    row has a missing date. *)
Definition MinForecastDate (f : DataFrame) (m : Timestamp) : Prop :=
  (exists r, In r f /\ notna (Prophet_Forecast r) = true /\ Date r = m) /\
  (forall r, In r f -> notna (Prophet_Forecast r) = true ->
             Date r = NaT \/ ts_le m (Date r)).

(** [d] is the maximum Date of the frame strictly less than [m]. *)
Definition LastDateBefore (f : DataFrame) (m d : Timestamp) : Prop :=
  (exists r, In r f /\ Date r = d) /\
  ts_lt d m /\
  (forall r, In r f -> ts_lt (Date r) m -> ts_le (Date r) d).

(** [x] comes before [y], or is [y], in the order [sorted] uses. *)
Definition str_le (x y : string) : Prop := String.leb x y = true.




(** ** A sample file system

    Four files: one in UTF-8, one in the legacy encoding, one with a header
    line and no data, one that is not text at all; any other path does not
    exist.  Dates are the first days of two months. *)
Definition sample_columns : list string :=
  ["Area"; "Date"; "Actual"; "Prophet_Train_Fitted"; "Prophet_Forecast";
   "Auto_arima_forcasted"; "Lower_95_CI"; "Upper_95_CI"].

Definition sample_raw : RawFrame :=
  {| raw_columns := sample_columns;
     raw_rows :=
       [ {| raw_Area := "North"; raw_Date := Some "2024-01-01";
            raw_Actual := Some (10 # 1); raw_Prophet_Train_Fitted := Some (21 # 2);
            raw_Prophet_Forecast := None; raw_Auto_arima_forcasted := None;
            raw_Lower_95_CI := None; raw_Upper_95_CI := None |};
         {| raw_Area := "North"; raw_Date := Some "2024-02-01";
            raw_Actual := None; raw_Prophet_Train_Fitted := None;
            raw_Prophet_Forecast := Some (11 # 1);
            raw_Auto_arima_forcasted := Some (23 # 2);
            raw_Lower_95_CI := Some (10 # 1); raw_Upper_95_CI := Some (12 # 1) |} ] |}.

Definition sample_header_only : RawFrame :=
  {| raw_columns := sample_columns; raw_rows := [] |}.

Definition sample_read_csv (file_path : string) (enc : Encoding)
  : Outcome RawFrame :=
  if String.eqb file_path "utf8.csv" then Returns sample_raw
  else if String.eqb file_path "legacy.csv" then
    match enc with
    | utf8 => Raises (UnicodeDecodeError "'utf-8' codec can't decode byte 0xe9")
    | latin1 => Returns sample_raw
    end
  else if String.eqb file_path "header_only.csv" then Returns sample_header_only
  else if String.eqb file_path "binary.xlsx" then
    match enc with
    | utf8 => Raises (UnicodeDecodeError "'utf-8' codec can't decode byte 0x82")
    | latin1 => Raises (OtherException "ParserError" "Error tokenizing data")
    end
  else Raises (OtherException "FileNotFoundError" "No such file or directory").

Fixpoint sample_to_datetime (cells : list (option string))
  : Outcome (list Timestamp) :=
  match cells with
  | [] => Returns []
  | c :: rest =>
      match sample_to_datetime rest with
      | Raises e => Raises e
      | Returns parsed =>
          match c with
          | None => Returns (NaT :: parsed)
          | Some text =>
              if String.eqb text "2024-01-01" then Returns (Ts 1 :: parsed)
              else if String.eqb text "2024-02-01" then Returns (Ts 2 :: parsed)
              else Raises (OtherException "ValueError" "Unknown datetime string format")
          end
      end
  end.

(** The file system of the sample with the table file of the script in it,
    stored in the legacy encoding. *)
Definition sample_read_table (file_path : string) (enc : Encoding)
  : Outcome RawFrame :=
  if String.eqb file_path FILE_NAME then sample_read_csv "legacy.csv" enc
  else sample_read_csv file_path enc.

(** ** A sample table

    Area North has six monthly rows: Actual and the fitted value for the
    first three, both forecasts and the interval for the last three.  Area
    South has a single row, which carries a forecast.  Area West has two
    rows of history and no forecast. *)
Definition history_row (a : string) (t : Z) (actual fitted : Q) : Row :=
  {| Area := a; Date := Ts t;
     Actual := Some actual; Prophet_Train_Fitted := Some fitted;
     Prophet_Forecast := None; Auto_arima_forcasted := None;
     Lower_95_CI := None; Upper_95_CI := None |}.

Definition forecast_row (a : string) (t : Z) (prophet arima lo hi : Q) : Row :=
  {| Area := a; Date := Ts t;
     Actual := None; Prophet_Train_Fitted := None;
     Prophet_Forecast := Some prophet; Auto_arima_forcasted := Some arima;
     Lower_95_CI := Some lo; Upper_95_CI := Some hi |}.

Definition sample_table : DataFrame :=
  [ history_row "West" 1 (3 # 1) (7 # 2);
    history_row "North" 1 (10 # 1) (21 # 2);
    history_row "North" 2 (11 # 1) (23 # 2);
    history_row "West" 2 (4 # 1) (9 # 2);
    forecast_row "South" 4 (7 # 1) (15 # 2) (6 # 1) (8 # 1);
    history_row "North" 3 (12 # 1) (25 # 2);
    forecast_row "North" 4 (13 # 1) (27 # 2) (12 # 1) (14 # 1);
    forecast_row "North" 5 (14 # 1) (29 # 2) (12 # 1) (16 # 1);
    forecast_row "North" 6 (15 # 1) (31 # 2) (12 # 1) (18 # 1) ].

(** A table with one Area in lower case and one capitalised. *)
Definition mixed_case_table : DataFrame :=
  [ {| Area := "apple"; Date := Ts 1;
       Actual := Some (1 # 1); Prophet_Train_Fitted := None;
       Prophet_Forecast := None; Auto_arima_forcasted := None;
       Lower_95_CI := None; Upper_95_CI := None |};
    {| Area := "Zebra"; Date := Ts 1;
       Actual := Some (2 # 1); Prophet_Train_Fitted := None;
       Prophet_Forecast := None; Auto_arima_forcasted := None;
       Lower_95_CI := None; Upper_95_CI := None |} ].

(** * Properties *)

(** ** Timestamps *)

Lemma ts_ltb_lt (a b : Timestamp) : ts_ltb a b = true <-> ts_lt a b.
Proof.
  destruct a as [|x], b as [|y]; simpl; try (split; [discriminate | tauto]).
  apply Z.ltb_lt.
Qed.

Lemma series_min_cases (l : list Timestamp) :
  (series_min l = NaT /\ forall t, In t l -> t = NaT) \/
  (exists z, series_min l = Ts z /\ In (Ts z) l /\ forall y, In (Ts y) l -> z <= y).
Proof.
  induction l as [|a l IH]; simpl.
  - left. split; [reflexivity | tauto].
  - destruct a as [|x]; simpl.
    + destruct IH as [[E All] | [z [E [I Low]]]].
      * left. split; [exact E |]. intros t [<- | H]; [reflexivity | now apply All].
      * right. exists z. split; [exact E |]. split; [now right |].
        intros y [H | H]; [discriminate | now apply Low].
    + destruct IH as [[E All] | [z [E [I Low]]]]; rewrite E; simpl.
      * right. exists x. split; [reflexivity |]. split; [now left |].
        intros y [H | H]; [injection H as ->; lia |].
        apply All in H. discriminate.
      * right. exists (Z.min x z). split; [reflexivity |]. split.
        -- destruct (Z.min_spec x z) as [[_ ->] | [_ ->]]; [now left | now right].
        -- intros y [H | H]; [injection H as ->; lia |].
           apply Low in H. lia.
Qed.

Lemma series_max_cases (l : list Timestamp) :
  (series_max l = NaT /\ forall t, In t l -> t = NaT) \/
  (exists z, series_max l = Ts z /\ In (Ts z) l /\ forall y, In (Ts y) l -> y <= z).
Proof.
  induction l as [|a l IH]; simpl.
  - left. split; [reflexivity | tauto].
  - destruct a as [|x]; simpl.
    + destruct IH as [[E All] | [z [E [I Up]]]].
      * left. split; [exact E |]. intros t [<- | H]; [reflexivity | now apply All].
      * right. exists z. split; [exact E |]. split; [now right |].
        intros y [H | H]; [discriminate | now apply Up].
    + destruct IH as [[E All] | [z [E [I Up]]]]; rewrite E; simpl.
      * right. exists x. split; [reflexivity |]. split; [now left |].
        intros y [H | H]; [injection H as ->; lia |].
        apply All in H. discriminate.
      * right. exists (Z.max x z). split; [reflexivity |]. split.
        -- destruct (Z.max_spec x z) as [[_ ->] | [_ ->]]; [now right | now left].
        -- intros y [H | H]; [injection H as ->; lia |].
           apply Up in H. lia.
Qed.

Lemma empty_false_iff {A : Type} (l : list A) :
  empty l = false <-> exists a, In a l.
Proof.
  destruct l as [|a l]; simpl; split.
  - discriminate.
  - intros [a []].
  - intros _. exists a. now left.
  - reflexivity.
Qed.

(** ** Forecast start date *)

Lemma in_filter_area (df : DataFrame) (a : string) (r : Row) :
  In r (filter_area df a) <-> In r df /\ Area r = a.
Proof.
  unfold filter_area. rewrite filter_In, String.eqb_eq. reflexivity.
Qed.

Lemma in_forecast_series (f : DataFrame) (t : Timestamp) :
  In t (forecast_start_date_series f) <->
  exists r, In r f /\ notna (Prophet_Forecast r) = true /\ Date r = t.
Proof.
  unfold forecast_start_date_series. rewrite in_map_iff. split.
  - intros [r [E H]]. apply filter_In in H. exists r. tauto.
  - intros [r [H [N E]]]. exists r. split; [exact E |]. apply filter_In. tauto.
Qed.

Lemma in_previous_dates (f : DataFrame) (m t : Timestamp) :
  In t (previous_dates f m) <-> exists r, In r f /\ ts_lt (Date r) m /\ Date r = t.
Proof.
  unfold previous_dates. rewrite in_map_iff. split.
  - intros [r [E H]]. apply filter_In in H. exists r.
    rewrite <- ts_ltb_lt. tauto.
  - intros [r [H [L E]]]. exists r. split; [exact E |]. apply filter_In.
    rewrite ts_ltb_lt. tauto.
Qed.

Lemma has_forecast_series (f : DataFrame) :
  has_forecast f <-> empty (forecast_start_date_series f) = false.
Proof.
  rewrite empty_false_iff. split.
  - intros [r [H N]]. exists (Date r). apply in_forecast_series. now exists r.
  - intros [t H]. apply in_forecast_series in H.
    destruct H as [r [H [N _]]]. now exists r.
Qed.

Lemma series_min_MinForecastDate (f : DataFrame) :
  has_forecast f -> MinForecastDate f (series_min (forecast_start_date_series f)).
Proof.
  intros HF.
  destruct (series_min_cases (forecast_start_date_series f))
    as [[E All] | [z [E [I Low]]]]; rewrite E.
  - split.
    + destruct HF as [r [H N]]. exists r. repeat split; try assumption.
      apply All, in_forecast_series. now exists r.
    + intros r H N. left. apply All, in_forecast_series. now exists r.
  - split.
    + now apply in_forecast_series in I.
    + intros r H N. destruct (Date r) as [|y] eqn:D; [now left | right].
      simpl. apply Low, in_forecast_series. now exists r.
Qed.

Lemma MinForecastDate_unique (f : DataFrame) (m1 m2 : Timestamp) :
  MinForecastDate f m1 -> MinForecastDate f m2 -> m1 = m2.
Proof.
  intros [[r1 [H1 [N1 D1]]] L1] [[r2 [H2 [N2 D2]]] L2].
  specialize (L1 r2 H2 N2). specialize (L2 r1 H1 N1).
  rewrite D2 in L1. rewrite D1 in L2.
  destruct m1 as [|x], m2 as [|y]; simpl in *; try reflexivity.
  - destruct L1 as [L1 | []]. discriminate.
  - destruct L2 as [L2 | []]. discriminate.
  - destruct L1 as [L1 | L1]; [discriminate |].
    destruct L2 as [L2 | L2]; [discriminate |].
    f_equal. lia.
Qed.

Lemma series_max_LastDateBefore (f : DataFrame) (m : Timestamp) :
  empty (previous_dates f m) = false ->
  LastDateBefore f m (series_max (previous_dates f m)).
Proof.
  intros NE. apply empty_false_iff in NE. destruct NE as [t Ht].
  destruct (series_max_cases (previous_dates f m)) as [[E All] | [z [E [I Up]]]].
  - pose proof (All t Ht) as Et. subst t. apply in_previous_dates in Ht.
    destruct Ht as [r [_ [L D]]]. rewrite D in L. destruct L.
  - rewrite E. apply in_previous_dates in I. destruct I as [r [H [L D]]].
    split; [now exists r |]. split; [now rewrite <- D |].
    intros r' H' L'. destruct (Date r') as [|y] eqn:D'; [destruct L' |].
    simpl. apply Up, in_previous_dates. exists r'. rewrite D'. tauto.
Qed.

Lemma LastDateBefore_unique (f : DataFrame) (m d1 d2 : Timestamp) :
  LastDateBefore f m d1 -> LastDateBefore f m d2 -> d1 = d2.
Proof.
  intros [[r1 [H1 D1]] [L1 U1]] [[r2 [H2 D2]] [L2 U2]].
  assert (A : ts_le d2 d1) by (rewrite <- D2 at 1; apply U1; [exact H2 | now rewrite D2]).
  assert (B : ts_le d1 d2) by (rewrite <- D1 at 1; apply U2; [exact H1 | now rewrite D1]).
  destruct d1 as [|x], d2 as [|y]; simpl in *; try tauto.
  f_equal. lia.
Qed.

Lemma previous_dates_empty_iff (f : DataFrame) (m : Timestamp) :
  empty (previous_dates f m) = true <-> forall r, In r f -> ~ ts_lt (Date r) m.
Proof.
  split.
  - intros E r H L.
    assert (I : In (Date r) (previous_dates f m))
      by (apply in_previous_dates; now exists r).
    destruct (previous_dates f m); [destruct I | discriminate].
  - intros N. destruct (previous_dates f m) as [|t l] eqn:E; [reflexivity |].
    assert (I : In t (previous_dates f m)) by (rewrite E; now left).
    apply in_previous_dates in I. destruct I as [r [H [L _]]].
    destruct (N r H L).
Qed.

(** The value of [forecast_start_date], case by case. *)
Lemma forecast_start_date_cases (f : DataFrame) :
  has_forecast f ->
  let m := series_min (forecast_start_date_series f) in
  (empty (previous_dates f m) = false /\
   forecast_start_date f = Some (series_max (previous_dates f m))) \/
  (empty (previous_dates f m) = true /\ forecast_start_date f = Some m).
Proof.
  intros HF m. apply has_forecast_series in HF.
  unfold forecast_start_date. rewrite HF. simpl. fold m.
  destruct (empty (previous_dates f m)); simpl; [right | left]; split; reflexivity.
Qed.

Lemma forecast_start_date_None (f : DataFrame) :
  forecast_start_date f = None <-> ~ has_forecast f.
Proof.
  rewrite has_forecast_series. unfold forecast_start_date.
  destruct (empty (forecast_start_date_series f)); simpl.
  - split; [discriminate | reflexivity].
  - destruct (empty (previous_dates _ _)); simpl; split;
      solve [discriminate | intros H; now destruct H].
Qed.

Lemma marker_positions_chart (out : TransformerOutput) :
  marker_positions (chart out) =
  match out_forecast_start_date out with Some d => [d] | None => [] end.
Proof.
  unfold chart. destruct (out_forecast_start_date out); reflexivity.
Qed.

(** C1 (as amended).  When the rows of the selected Area carry a
    Prophet_Forecast value, the minimum Date [m] among the rows with a value
    exists; if some row of the Area has a Date strictly less than [m], the
    forecast start date is the maximum such Date, and otherwise it is [m]
    itself.  In both cases the chart has one vertical marker, at the
    forecast start date. *)
Theorem forecast_start_date_last_before_first_forecast
    (df : DataFrame) (a : string) :
  has_forecast (filter_area df a) ->
  exists m,
    MinForecastDate (filter_area df a) m /\
    ((exists r, In r (filter_area df a) /\ ts_lt (Date r) m) ->
     exists d,
       LastDateBefore (filter_area df a) m d /\
       forecast_start_date (filter_area df a) = Some d /\
       marker_positions (chart (transformer_output df a)) = [d]) /\
    ((~ exists d, LastDateBefore (filter_area df a) m d) ->
     forecast_start_date (filter_area df a) = Some m /\
     marker_positions (chart (transformer_output df a)) = [m]).
Proof.
  intros HF. set (f := filter_area df a) in *.
  exists (series_min (forecast_start_date_series f)).
  split; [now apply series_min_MinForecastDate |].
  rewrite marker_positions_chart. simpl out_forecast_start_date. fold f.
  destruct (forecast_start_date_cases f HF) as [[NE E] | [EM E]]; rewrite E.
  - split.
    + intros _. eexists. split; [now apply series_max_LastDateBefore |].
      split; reflexivity.
    + intros No. exfalso. apply No. eexists.
      now apply series_max_LastDateBefore.
  - split.
    + intros [r [H L]]. rewrite previous_dates_empty_iff in EM.
      destruct (EM r H L).
    + intros _. split; reflexivity.
Qed.

Lemma forecast_start_date_last_before_first_forecast_witness :
  exists m,
    MinForecastDate (filter_area sample_table "North") m /\
    ((exists r, In r (filter_area sample_table "North") /\ ts_lt (Date r) m) ->
     exists d,
       LastDateBefore (filter_area sample_table "North") m d /\
       forecast_start_date (filter_area sample_table "North") = Some d /\
       marker_positions (chart (transformer_output sample_table "North")) = [d]) /\
    ((~ exists d, LastDateBefore (filter_area sample_table "North") m d) ->
     forecast_start_date (filter_area sample_table "North") = Some m /\
     marker_positions (chart (transformer_output sample_table "North")) = [m]).
Proof.
  apply (forecast_start_date_last_before_first_forecast sample_table "North").
  exists (forecast_row "North" 4 (13 # 1) (27 # 2) (12 # 1) (14 # 1)).
  split; [simpl; tauto | reflexivity].
Defined.

(** C1, as stated, fails: the single row of Area South carries a forecast and
    no row of the Area is earlier, yet the forecast start date is defined
    and a marker is drawn. *)
Lemma forecast_start_date_not_undefined_without_earlier_date :
  ~ (forall (df : DataFrame) (a : string),
       has_forecast (filter_area df a) ->
       forall m, MinForecastDate (filter_area df a) m ->
       (~ exists d, LastDateBefore (filter_area df a) m d) ->
       forecast_start_date (filter_area df a) = None /\
       marker_positions (chart (transformer_output df a)) = []).
Proof.
  intros Claim.
  assert (HF : has_forecast (filter_area sample_table "South")).
  { exists (forecast_row "South" 4 (7 # 1) (15 # 2) (6 # 1) (8 # 1)).
    split; [simpl; tauto | reflexivity]. }
  destruct (Claim sample_table "South" HF _ (series_min_MinForecastDate _ HF))
    as [E _].
  - intros [d [[r [H D]] [L _]]].
    vm_compute in H. destruct H as [<- | []].
    simpl in D. subst d. vm_compute in L. discriminate.
  - vm_compute in E. discriminate.
Qed.

(** C9.  When the rows of the selected Area carry a Prophet_Forecast value, a
    vertical marker is drawn; and when no row of the Area has a Date strictly
    earlier than the minimum forecast Date, the marker sits at that minimum
    forecast Date. *)
Theorem marker_at_min_forecast_date_without_earlier_date
    (df : DataFrame) (a : string) :
  has_forecast (filter_area df a) ->
  (exists d,
     forecast_start_date (filter_area df a) = Some d /\
     marker_positions (chart (transformer_output df a)) = [d] /\
     In (v_line d) (chart (transformer_output df a))) /\
  (forall m,
     MinForecastDate (filter_area df a) m ->
     (forall r, In r (filter_area df a) -> ~ ts_lt (Date r) m) ->
     forecast_start_date (filter_area df a) = Some m /\
     marker_positions (chart (transformer_output df a)) = [m] /\
     In (v_line m) (chart (transformer_output df a))).
Proof.
  intros HF. set (f := filter_area df a) in *.
  assert (Drawn : forall d, forecast_start_date f = Some d ->
            forecast_start_date f = Some d /\
            marker_positions (chart (transformer_output df a)) = [d] /\
            In (v_line d) (chart (transformer_output df a))).
  { intros d E. split; [exact E |]. unfold chart. simpl out_forecast_start_date.
    fold f. rewrite E. simpl. tauto. }
  split.
  - destruct (forecast_start_date_cases f HF) as [[_ E] | [_ E]];
      eexists; apply Drawn; exact E.
  - intros m M No. apply Drawn.
    rewrite (MinForecastDate_unique f m _ M (series_min_MinForecastDate f HF)) in *.
    destruct (forecast_start_date_cases f HF) as [[NE E] | [_ E]]; [| exact E].
    apply previous_dates_empty_iff in No. congruence.
Qed.

Lemma marker_at_min_forecast_date_without_earlier_date_witness :
  forecast_start_date (filter_area sample_table "South") = Some (Ts 4) /\
  marker_positions (chart (transformer_output sample_table "South")) = [Ts 4] /\
  In (v_line (Ts 4)) (chart (transformer_output sample_table "South")).
Proof.
  apply (marker_at_min_forecast_date_without_earlier_date sample_table "South").
  - exists (forecast_row "South" 4 (7 # 1) (15 # 2) (6 # 1) (8 # 1)).
    split; [simpl; tauto | reflexivity].
  - split.
    + exists (forecast_row "South" 4 (7 # 1) (15 # 2) (6 # 1) (8 # 1)).
      split; [simpl; tauto | split; reflexivity].
    + intros r H _. vm_compute in H. destruct H as [<- | []].
      right. simpl. lia.
  - intros r H L. vm_compute in H. destruct H as [<- | []].
    vm_compute in L. discriminate.
Defined.

Example marker_of_South :
  marker_positions (chart (transformer_output sample_table "South")) = [Ts 4].
Proof. reflexivity. Qed.

Example marker_of_North :
  marker_positions (chart (transformer_output sample_table "North")) = [Ts 3].
Proof. reflexivity. Qed.

(** ** Reshape *)

Lemma nth_error_blocks {A B C : Type} (g : C -> A -> B) (f : list A)
    (cols : list C) (k i : nat) (c : C) (r : A) :
  nth_error cols k = Some c ->
  nth_error f i = Some r ->
  nth_error (flat_map (fun c => map (g c) f) cols) (k * List.length f + i) = Some (g c r).
Proof.
  revert k. induction cols as [|c0 cols IH]; intros [|k]; simpl; try discriminate.
  - intros [= ->] Hr. rewrite nth_error_app1.
    + rewrite nth_error_map, Hr. reflexivity.
    + rewrite length_map. apply nth_error_Some. congruence.
  - intros Hc Hr. rewrite nth_error_app2; rewrite length_map; [| lia].
    replace (List.length f + k * List.length f + i - List.length f)%nat
      with (k * List.length f + i)%nat by lia.
    now apply IH.
Qed.

Lemma in_melt (f : DataFrame) (p : LongRow) :
  In p (melt f) <-> exists c r, In c melt_cols /\ In r f /\ p = long_row c r.
Proof.
  unfold melt. rewrite in_flat_map. split.
  - intros [c [Hc Hp]]. apply in_map_iff in Hp. destruct Hp as [r [E Hr]].
    exists c, r. auto.
  - intros [c [r [Hc [Hr ->]]]]. exists c. split; [exact Hc |].
    now apply in_map.
Qed.

Lemma length_melt (f : DataFrame) : List.length (melt f) = (4 * List.length f)%nat.
Proof.
  unfold melt. simpl. repeat rewrite length_app. repeat rewrite length_map.
  simpl. lia.
Qed.

(** C3.  Filtering to an Area and reshaping gives four long-form rows per
    filtered row: the long frame has four times as many rows, the row at
    position [i] reappears once in each of the four series blocks, every
    long-form row arises this way, and each one carries the Lower_95_CI and
    Upper_95_CI cells of the row it comes from. *)
Theorem melt_four_long_rows_per_filtered_row (df : DataFrame) (a : string) :
  List.length (melt (filter_area df a)) = (4 * List.length (filter_area df a))%nat /\
  map column_name melt_cols =
    ["Actual"; "Prophet_Train_Fitted"; "Prophet_Forecast"; "Auto_arima_forcasted"] /\
  (forall i r k c,
     nth_error (filter_area df a) i = Some r ->
     nth_error melt_cols k = Some c ->
     nth_error (melt (filter_area df a)) (k * List.length (filter_area df a) + i)
       = Some {| long_Area := Area r;
                 long_Date := Date r;
                 long_Lower_95_CI := Lower_95_CI r;
                 long_Upper_95_CI := Upper_95_CI r;
                 Series := column_name c;
                 Value := column_value c r |}) /\
  (forall p,
     In p (melt (filter_area df a)) ->
     exists c r,
       In c melt_cols /\ In r (filter_area df a) /\
       Series p = column_name c /\ Value p = column_value c r /\
       long_Date p = Date r /\
       long_Lower_95_CI p = Lower_95_CI r /\
       long_Upper_95_CI p = Upper_95_CI r).
Proof.
  split; [apply length_melt |]. split; [reflexivity |]. split.
  - intros i r k c Hr Hc. unfold melt.
    now apply (nth_error_blocks long_row).
  - intros p Hp. apply in_melt in Hp. destruct Hp as [c [r [Hc [Hr ->]]]].
    exists c, r. repeat split; assumption.
Qed.

Lemma melt_four_long_rows_per_filtered_row_witness :
  nth_error (melt (filter_area sample_table "North")) (2 * 6 + 4)
  = Some {| long_Area := "North";
            long_Date := Ts 5;
            long_Lower_95_CI := Some (12 # 1);
            long_Upper_95_CI := Some (16 # 1);
            Series := "Prophet_Forecast";
            Value := Some (14 # 1) |}.
Proof.
  apply (proj1 (proj2 (proj2
           (melt_four_long_rows_per_filtered_row sample_table "North")))
         4%nat (forecast_row "North" 5 (14 # 1) (29 # 2) (12 # 1) (16 # 1))
         2%nat ColProphetForecast);
    reflexivity.
Defined.

(** ** Area invariant *)

(** C10.  Every row of the filtered frame, every long-form row and every row
    of the confidence-band subset has the selected Area in its Area field. *)
Theorem selected_area_on_every_row (df : DataFrame) (a : string) :
  (forall r, In r (out_df_filtered (transformer_output df a)) -> Area r = a) /\
  (forall p, In p (out_df_melted (transformer_output df a)) -> long_Area p = a) /\
  (forall r, In r (out_df_ci (transformer_output df a)) -> Area r = a).
Proof.
  simpl. repeat split.
  - intros r H. now apply in_filter_area in H.
  - intros p H. apply in_melt in H. destruct H as [c [r [_ [H ->]]]].
    simpl. now apply in_filter_area in H.
  - intros r H. unfold dropna_Prophet_Forecast in H. apply filter_In in H.
    destruct H as [H _]. now apply in_filter_area in H.
Qed.

Lemma selected_area_on_every_row_witness :
  Area (forecast_row "North" 5 (14 # 1) (29 # 2) (12 # 1) (16 # 1)) = "North".
Proof.
  apply (proj2 (proj2 (selected_area_on_every_row sample_table "North"))).
  simpl. tauto.
Defined.

(** ** Confidence band *)

Lemma band_points_chart (out : TransformerOutput) :
  band_points (chart out) = out_df_ci out.
Proof.
  unfold chart. destruct (out_forecast_start_date out); simpl;
    now rewrite app_nil_r.
Qed.

Lemma dropna_nil_iff (f : DataFrame) :
  dropna_Prophet_Forecast f = [] <-> ~ has_forecast f.
Proof.
  unfold dropna_Prophet_Forecast, has_forecast. split.
  - intros E [r [H N]].
    assert (I : In r (filter (fun r => notna (Prophet_Forecast r)) f))
      by (apply filter_In; tauto).
    rewrite E in I. destruct I.
  - intros No. destruct (filter _ f) as [|r l] eqn:E; [reflexivity |].
    exfalso. apply No. exists r.
    apply (filter_In (fun r => notna (Prophet_Forecast r))). rewrite E. now left.
Qed.

(** C5.  The confidence-band subset keeps, in frame order, exactly the rows
    of the filtered frame whose Prophet_Forecast cell is present, and these
    are the points of the band in the chart.  When no filtered row has a
    Prophet_Forecast value the band has no points and there is no vertical
    marker; the page still shows the chart, made of the empty band layer and
    the lines. *)
Theorem confidence_band_rows_with_forecast (df : DataFrame) (a : string) :
  out_df_ci (transformer_output df a)
    = filter (fun r => notna (Prophet_Forecast r)) (filter_area df a) /\
  (forall r, In r (out_df_ci (transformer_output df a)) <->
             In r (filter_area df a) /\ Prophet_Forecast r <> None) /\
  band_points (chart (transformer_output df a)) = out_df_ci (transformer_output df a) /\
  (~ has_forecast (filter_area df a) ->
   band_points (chart (transformer_output df a)) = [] /\
   marker_positions (chart (transformer_output df a)) = [] /\
   chart (transformer_output df a) = [ci_band []; lines (melt (filter_area df a))] /\
   forall picked,
     empty df = false ->
     selected_area df picked = Some a ->
     a <> "" ->
     page df picked =
       PageChart ("Forecast Analysis for " ++ a)
                 [ci_band []; lines (melt (filter_area df a))]
                 (filter_area df a)).
Proof.
  split; [reflexivity |]. split.
  { intros r. simpl. unfold dropna_Prophet_Forecast. rewrite filter_In.
    destruct (Prophet_Forecast r); simpl; split; intros [H N];
      split; congruence. }
  split; [apply band_points_chart |].
  intros No.
  assert (C : chart (transformer_output df a)
              = [ci_band []; lines (melt (filter_area df a))]).
  { unfold chart. simpl.
    rewrite (proj2 (forecast_start_date_None _) No).
    now rewrite (proj2 (dropna_nil_iff _) No). }
  rewrite C. repeat split.
  intros picked NE Sel Ha. unfold page. rewrite NE, Sel. simpl.
  apply String.eqb_neq in Ha. rewrite Ha. simpl. now rewrite C.
Qed.

Lemma confidence_band_rows_with_forecast_witness :
  page sample_table (Some 2%nat) =
    PageChart ("Forecast Analysis for " ++ "West")
              [ci_band []; lines (melt (filter_area sample_table "West"))]
              (filter_area sample_table "West").
Proof.
  apply (proj2 (proj2 (proj2
           (proj2 (proj2 (proj2 (confidence_band_rows_with_forecast sample_table "West")))
              ltac:(intros [r [H N]]; vm_compute in H;
                    destruct H as [<- | [<- | []]]; discriminate))))
         (Some 2%nat)).
  - reflexivity.
  - reflexivity.
  - discriminate.
Defined.

(** ** Distinct values *)

Lemma in_unique (l : list string) (x : string) : In x (unique l) <-> In x l.
Proof.
  induction l as [|y l IH]; simpl; [reflexivity |].
  rewrite filter_In, IH. split.
  - tauto.
  - intros [-> | H]; [now left |].
    destruct (String.eqb y x) eqn:E.
    + left. now apply String.eqb_eq.
    + right. split; [exact H | reflexivity].
Qed.

Lemma NoDup_unique (l : list string) : NoDup (unique l).
Proof.
  induction l as [|y l IH]; simpl; constructor.
  - rewrite filter_In. intros [_ H]. now rewrite String.eqb_refl in H.
  - now apply NoDup_filter.
Qed.

Lemma filter_filter_same {A : Type} (p : A -> bool) (l : list A) :
  filter p (filter p l) = filter p l.
Proof.
  induction l as [|x l IH]; simpl; [reflexivity |].
  destruct (p x) eqn:E; simpl; [rewrite E |]; now rewrite IH.
Qed.

Lemma unique_repeat_app (x : string) (n : nat) (l : list string) :
  unique (repeat x (S n) ++ l)
  = x :: filter (fun y => negb (String.eqb x y)) (unique l).
Proof.
  induction n as [|n IH].
  - reflexivity.
  - change (repeat x (S (S n)) ++ l) with (x :: (repeat x (S n) ++ l)).
    cbn [unique]. rewrite IH. cbn [filter].
    rewrite String.eqb_refl. cbn [negb]. now rewrite filter_filter_same.
Qed.

Lemma map_Series_melt (f : DataFrame) :
  map Series (melt f)
  = flat_map (fun c => repeat (column_name c) (List.length f)) melt_cols.
Proof.
  assert (B : forall c, map Series (map (long_row c) f)
                        = repeat (column_name c) (List.length f)).
  { intros c. induction f as [|r f IH]; simpl; [reflexivity | now rewrite IH]. }
  unfold melt. simpl. rewrite !map_app, !B. reflexivity.
Qed.

Lemma unique_Series_melt (f : DataFrame) :
  f <> [] ->
  unique (map Series (melt f)) = map column_name melt_cols.
Proof.
  destruct f as [|r f]; [congruence | intros _].
  rewrite map_Series_melt. cbn [melt_cols flat_map List.length].
  rewrite !unique_repeat_app. reflexivity.
Qed.

(** ** Line styles and layer order *)

Lemma stroke_dash_cases (s : string) :
  (stroke_dash s = [5; 5]%nat /\
   (s = "Prophet_Forecast" \/ s = "Auto_arima_forcasted")) \/
  (stroke_dash s = [1; 0]%nat /\
   s <> "Prophet_Forecast" /\ s <> "Auto_arima_forcasted").
Proof.
  unfold stroke_dash, dashed_series. cbn [existsb].
  destruct (String.eqb_spec s "Prophet_Forecast") as [-> | N1].
  - left. split; [reflexivity | now left].
  - destruct (String.eqb_spec s "Auto_arima_forcasted") as [-> | N2].
    + left. split; [reflexivity | now right].
    + right. repeat split; assumption.
Qed.

Lemma drawn_lines_chart (out : TransformerOutput) :
  drawn_lines (chart out) = line_marks (out_df_melted out).
Proof.
  unfold chart. destruct (out_forecast_start_date out); simpl;
    now rewrite app_nil_r.
Qed.

(** C8.  The lines of the chart are one per distinct Series value of the
    long frame, keyed (and so coloured) by that value and drawn through the
    long-form rows that carry it; a line is dashed exactly when its Series is
    Prophet_Forecast or Auto_arima_forcasted and solid otherwise; when the
    selected Area has rows, the lines are the four series, two solid and two
    dashed; and the lines layer sits directly above the band layer. *)
Theorem forecast_lines_dashed_over_band (df : DataFrame) (a : string) :
  map line_color_key (drawn_lines (chart (transformer_output df a)))
    = unique (map Series (out_df_melted (transformer_output df a))) /\
  NoDup (map line_color_key (drawn_lines (chart (transformer_output df a)))) /\
  (forall l, In l (drawn_lines (chart (transformer_output df a))) ->
     line_points l
       = filter (fun p => String.eqb (Series p) (line_color_key l))
                (out_df_melted (transformer_output df a)) /\
     ((line_stroke_dash l = [5; 5]%nat /\
       (line_color_key l = "Prophet_Forecast" \/
        line_color_key l = "Auto_arima_forcasted")) \/
      (line_stroke_dash l = [1; 0]%nat /\
       line_color_key l <> "Prophet_Forecast" /\
       line_color_key l <> "Auto_arima_forcasted"))) /\
  (filter_area df a <> [] ->
   map (fun l => (line_color_key l, line_stroke_dash l))
       (drawn_lines (chart (transformer_output df a)))
   = [("Actual", [1; 0]%nat);
      ("Prophet_Train_Fitted", [1; 0]%nat);
      ("Prophet_Forecast", [5; 5]%nat);
      ("Auto_arima_forcasted", [5; 5]%nat)]) /\
  layer_index is_ci_band (chart (transformer_output df a)) = Some 0%nat /\
  layer_index is_lines (chart (transformer_output df a)) = Some 1%nat.
Proof.
  rewrite drawn_lines_chart.
  assert (K : forall d, map line_color_key (line_marks d) = unique (map Series d)).
  { intros d. unfold line_marks. rewrite map_map. simpl. apply map_id. }
  split; [apply K |]. split; [rewrite K; apply NoDup_unique |]. split.
  - intros l H. unfold line_marks in H. apply in_map_iff in H.
    destruct H as [s [<- _]]. simpl. split; [reflexivity |].
    apply stroke_dash_cases.
  - split.
    + intros NE. unfold line_marks. rewrite map_map. simpl out_df_melted.
      rewrite (unique_Series_melt _ NE). reflexivity.
    + unfold chart. destruct (out_forecast_start_date _); split; reflexivity.
Qed.

Lemma forecast_lines_dashed_over_band_witness :
  map (fun l => (line_color_key l, line_stroke_dash l))
      (drawn_lines (chart (transformer_output sample_table "North")))
  = [("Actual", [1; 0]%nat);
     ("Prophet_Train_Fitted", [1; 0]%nat);
     ("Prophet_Forecast", [5; 5]%nat);
     ("Auto_arima_forcasted", [5; 5]%nat)].
Proof.
  apply (proj1 (proj2 (proj2 (proj2
           (forecast_lines_dashed_over_band sample_table "North"))))).
  discriminate.
Defined.

(** ** Order on strings *)

Lemma ascii_compare_refl (c : ascii) : Ascii.compare c c = Eq.
Proof. unfold Ascii.compare. apply N.compare_refl. Qed.

Lemma ascii_compare_lt_trans (a b c : ascii) :
  Ascii.compare a b = Lt -> Ascii.compare b c = Lt -> Ascii.compare a c = Lt.
Proof.
  unfold Ascii.compare. rewrite !N.compare_lt_iff. apply N.lt_trans.
Qed.

Lemma string_compare_lt_trans (s1 s2 s3 : string) :
  String.compare s1 s2 = Lt -> String.compare s2 s3 = Lt ->
  String.compare s1 s3 = Lt.
Proof.
  revert s2 s3. induction s1 as [|c1 s1 IH]; intros [|c2 s2] [|c3 s3];
    simpl; try discriminate; try reflexivity.
  destruct (Ascii.compare c1 c2) eqn:E12; try discriminate;
    destruct (Ascii.compare c2 c3) eqn:E23; try discriminate; intros H12 H23.
  - apply Ascii.compare_eq_iff in E12, E23. subst.
    rewrite ascii_compare_refl. now apply (IH s2).
  - apply Ascii.compare_eq_iff in E12. subst. now rewrite E23.
  - apply Ascii.compare_eq_iff in E23. subst. now rewrite E12.
  - now rewrite (ascii_compare_lt_trans _ _ _ E12 E23).
Qed.

Lemma string_leb_trans (s1 s2 s3 : string) :
  String.leb s1 s2 = true -> String.leb s2 s3 = true -> String.leb s1 s3 = true.
Proof.
  unfold String.leb.
  destruct (String.compare s1 s2) eqn:E12; try discriminate;
    destruct (String.compare s2 s3) eqn:E23; try discriminate; intros _ _.
  - apply String.compare_eq_iff in E12. subst. now rewrite E23.
  - apply String.compare_eq_iff in E12. subst. now rewrite E23.
  - apply String.compare_eq_iff in E23. subst. now rewrite E12.
  - now rewrite (string_compare_lt_trans _ _ _ E12 E23).
Qed.

(** ** Sorting *)

Lemma insert_sorted_perm (x : string) (l : list string) :
  Permutation (insert_sorted x l) (x :: l).
Proof.
  induction l as [|y l IH]; simpl; [reflexivity |].
  destruct (String.leb x y); [reflexivity |].
  rewrite IH. apply perm_swap.
Qed.

Lemma sorted_perm (l : list string) : Permutation (sorted l) l.
Proof.
  induction l as [|x l IH]; simpl; [reflexivity |].
  rewrite insert_sorted_perm. now constructor.
Qed.

Lemma insert_sorted_StronglySorted (x : string) (l : list string) :
  StronglySorted str_le l -> StronglySorted str_le (insert_sorted x l).
Proof.
  induction l as [|y l IH]; simpl; intros S.
  - repeat constructor.
  - inversion S as [|? ? S' All]; subst.
    destruct (String.leb x y) eqn:E.
    + constructor; [exact S |]. constructor; [exact E |].
      eapply Forall_impl; [| exact All].
      intros z Hz. now apply (string_leb_trans x y z).
    + constructor; [now apply IH |].
      eapply Permutation_Forall; [symmetry; apply insert_sorted_perm |].
      constructor; [| exact All].
      destruct (String.leb_total x y) as [H | H]; [congruence | exact H].
Qed.

Lemma sorted_StronglySorted (l : list string) : StronglySorted str_le (sorted l).
Proof.
  induction l as [|x l IH]; simpl; [constructor |].
  now apply insert_sorted_StronglySorted.
Qed.

Lemma in_all_areas (df : DataFrame) (a : string) :
  In a (all_areas df) <-> exists r, In r df /\ Area r = a.
Proof.
  unfold all_areas. split.
  - intros H. apply (Permutation_in _ (sorted_perm _)) in H.
    apply in_unique, in_map_iff in H. destruct H as [r [E H]]. now exists r.
  - intros [r [H E]].
    apply (Permutation_in _ (Permutation_sym (sorted_perm _))).
    apply in_unique, in_map_iff. now exists r.
Qed.

(** ** Selector *)




Example default_selection_mixed_case :
  selected_area mixed_case_table None = Some "Zebra".
Proof. reflexivity. Qed.

Example all_areas_sample : all_areas sample_table = ["North"; "South"; "West"].
Proof. reflexivity. Qed.

Example default_selection_sample : selected_area sample_table None = Some "North".
Proof. reflexivity. Qed.

(** ** Loader *)

Section LoaderProperties.

Variable read_csv : string -> Encoding -> Outcome RawFrame.
Variable to_datetime : list (option string) -> Outcome (list Timestamp).

Lemma empty_assign_Date (rows : list RawRow) (parsed : list Timestamp) :
  empty (assign_Date rows parsed) = empty rows.
Proof. destruct rows; reflexivity. Qed.

Lemma convert_Date_nonempty (raw : RawFrame) :
  returns_nonempty (convert_Date to_datetime raw) <->
  Date_parseable to_datetime raw /\ raw_rows raw <> [].
Proof.
  unfold returns_nonempty, Date_parseable, convert_Date.
  destruct (has_column "Date" raw); simpl.
  - destruct (to_datetime (map raw_Date (raw_rows raw))) as [parsed | e]; simpl.
    + split.
      * intros [df [[= <-] NE]]. rewrite empty_assign_Date in NE.
        split; [split; [reflexivity | now exists parsed] |].
        intros E. now rewrite E in NE.
      * intros [_ NE]. eexists. split; [reflexivity |].
        rewrite empty_assign_Date. revert NE.
        destruct (raw_rows raw); [intros NE; now destruct NE | reflexivity].
    + split.
      * intros [df [H _]]. discriminate.
      * intros [[_ [parsed H]] _]. discriminate.
  - split.
    + intros [df [H _]]. discriminate.
    + intros [[H _] _]. discriminate.
Qed.

Lemma load_data_readable (file_path : string) (raw : RawFrame) :
  readable read_csv file_path raw ->
  load_data read_csv to_datetime file_path = convert_Date to_datetime raw.
Proof.
  unfold load_data. intros [E | [[d E] E']]; rewrite E; [reflexivity |].
  now rewrite E'.
Qed.

Lemma load_data_nonempty_readable (file_path : string) :
  returns_nonempty (load_data read_csv to_datetime file_path) ->
  exists raw,
    readable read_csv file_path raw /\
    load_data read_csv to_datetime file_path = convert_Date to_datetime raw.
Proof.
  unfold load_data, readable.
  destruct (read_csv file_path utf8) as [raw | e] eqn:E1.
  - intros _. exists raw. split; [now left | reflexivity].
  - destruct e as [d | c d | c d];
      try (intros [df [H _]]; discriminate).
    destruct (read_csv file_path latin1) as [raw | e] eqn:E2.
    + intros _. exists raw. split; [| reflexivity].
      right. split; [now exists d | reflexivity].
    + destruct (is_Exception e); intros [df [H NE]]; [| discriminate].
      injection H as <-. discriminate.
Qed.

End LoaderProperties.

(** The outcomes of the loader, read by read.  It retries once, with the
    legacy encoding, when the default-encoding read fails with a decoding
    error; when that retry fails with an Exception it reports one error
    message and returns an empty table.  A read that succeeds goes on to the
    Date conversion.  Every other failure escapes the loader: a failure of
    the first read that is not a decoding error, a failure of the retry
    outside Exception, a missing Date column and a failure of the date
    parsing. *)
Theorem load_data_retries_once_then_reports
    (read_csv : string -> Encoding -> Outcome RawFrame)
    (to_datetime : list (option string) -> Outcome (list Timestamp))
    (file_path : string) :
  (forall raw,
     read_csv file_path utf8 = Returns raw ->
     load_data read_csv to_datetime file_path = convert_Date to_datetime raw) /\
  (forall d,
     read_csv file_path utf8 = Raises (UnicodeDecodeError d) ->
     (forall raw,
        read_csv file_path latin1 = Returns raw ->
        load_data read_csv to_datetime file_path = convert_Date to_datetime raw) /\
     (forall e,
        read_csv file_path latin1 = Raises e ->
        is_Exception e = true ->
        load_data read_csv to_datetime file_path
          = {| load_errors := [error_message e]; load_outcome := Returns [] |}) /\
     (forall e,
        read_csv file_path latin1 = Raises e ->
        is_Exception e = false ->
        load_data read_csv to_datetime file_path
          = {| load_errors := []; load_outcome := Raises e |})) /\
  (forall e,
     read_csv file_path utf8 = Raises e ->
     (forall d, e <> UnicodeDecodeError d) ->
     load_data read_csv to_datetime file_path
       = {| load_errors := []; load_outcome := Raises e |}) /\
  (forall raw e,
     load_outcome (convert_Date to_datetime raw) = Raises e <->
     (has_column "Date" raw = false /\ e = OtherException "KeyError" "'Date'") \/
     (has_column "Date" raw = true /\
      to_datetime (map raw_Date (raw_rows raw)) = Raises e)).
Proof.
  unfold load_data. repeat split.
  - intros raw ->. reflexivity.
  - intros raw E. rewrite H, E. reflexivity.
  - intros e E Ex. rewrite H, E, Ex. reflexivity.
  - intros e E Ex. rewrite H, E, Ex. reflexivity.
  - intros e E N. rewrite E. destruct e as [d | c d | c d]; try reflexivity.
    destruct (N d eq_refl).
  - unfold convert_Date. destruct (has_column "Date" raw); simpl.
    + destruct (to_datetime _); simpl; intros [= <-]. right. tauto.
    + intros [= <-]. left. tauto.
  - unfold convert_Date. intros [[-> ->] | [-> E]]; [reflexivity |].
    now rewrite E.
Qed.

Lemma load_data_retries_once_then_reports_witness :
  load_data sample_read_csv sample_to_datetime "binary.xlsx"
  = {| load_errors :=
         [error_message (OtherException "ParserError" "Error tokenizing data")];
       load_outcome := Returns [] |}.
Proof.
  apply (proj1 (proj2 (proj1 (proj2
           (load_data_retries_once_then_reports
              sample_read_csv sample_to_datetime "binary.xlsx"))
           "'utf-8' codec can't decode byte 0x82" eq_refl)));
    reflexivity.
Defined.

(** C2 (defect of the code).  A failure of the first read that is not a
    decoding error leaves the loader as an exception, with nothing reported:
    the handler around the first read names [UnicodeDecodeError] alone.  The
    very same failure on the retry is caught, reported through the message
    that asks to check the file path, and answered with an empty table.  So
    the loader does raise past its boundary, on a path that does not exist
    for one. *)
Theorem load_data_first_read_failure_escapes
    (read_csv : string -> Encoding -> Outcome RawFrame)
    (to_datetime : list (option string) -> Outcome (list Timestamp))
    (file_path : string) (e : PyExn) :
  read_csv file_path utf8 = Raises e ->
  is_Exception e = true ->
  (forall d, e <> UnicodeDecodeError d) ->
  load_data read_csv to_datetime file_path
    = {| load_errors := []; load_outcome := Raises e |} /\
  (forall (retried : string -> Encoding -> Outcome RawFrame) (d : string),
     retried file_path utf8 = Raises (UnicodeDecodeError d) ->
     retried file_path latin1 = Raises e ->
     load_data retried to_datetime file_path
       = {| load_errors := [error_message e]; load_outcome := Returns [] |}).
Proof.
  intros E Ex N. split.
  - unfold load_data. rewrite E. destruct e as [d | c d | c d]; try reflexivity.
    destruct (N d eq_refl).
  - intros retried d E1 E2. unfold load_data. now rewrite E1, E2, Ex.
Qed.

Lemma load_data_first_read_failure_escapes_witness :
  load_data sample_read_csv sample_to_datetime "missing.csv"
    = {| load_errors := [];
         load_outcome :=
           Raises (OtherException "FileNotFoundError" "No such file or directory") |} /\
  (forall (retried : string -> Encoding -> Outcome RawFrame) (d : string),
     retried "missing.csv" utf8 = Raises (UnicodeDecodeError d) ->
     retried "missing.csv" latin1
       = Raises (OtherException "FileNotFoundError" "No such file or directory") ->
     load_data retried sample_to_datetime "missing.csv"
       = {| load_errors :=
              [error_message
                 (OtherException "FileNotFoundError" "No such file or directory")];
            load_outcome := Returns [] |}).
Proof.
  apply (load_data_first_read_failure_escapes
           sample_read_csv sample_to_datetime "missing.csv").
  - reflexivity.
  - reflexivity.
  - discriminate.
Defined.

Example load_data_missing_file :
  load_data sample_read_csv sample_to_datetime "missing.csv"
  = {| load_errors := [];
       load_outcome :=
         Raises (OtherException "FileNotFoundError" "No such file or directory") |}.
Proof. reflexivity. Qed.

(** C4 (as amended).  The loader returns a table with rows exactly when the
    file is readable under one of the two encodings, tried in the loader's
    order, the frame read has a Date column that parses, and the file has at
    least one data row. *)
Theorem load_data_nonempty_iff
    (read_csv : string -> Encoding -> Outcome RawFrame)
    (to_datetime : list (option string) -> Outcome (list Timestamp))
    (file_path : string) :
  returns_nonempty (load_data read_csv to_datetime file_path) <->
  exists raw,
    readable read_csv file_path raw /\
    Date_parseable to_datetime raw /\
    raw_rows raw <> [].
Proof.
  split.
  - intros NE.
    destruct (load_data_nonempty_readable read_csv to_datetime file_path NE)
      as [raw [R E]].
    exists raw. split; [exact R |].
    apply (convert_Date_nonempty to_datetime). now rewrite <- E.
  - intros [raw [R H]].
    rewrite (load_data_readable read_csv to_datetime file_path raw R).
    now apply convert_Date_nonempty.
Qed.

Lemma load_data_nonempty_iff_witness :
  returns_nonempty (load_data sample_read_csv sample_to_datetime "legacy.csv").
Proof.
  apply (proj2 (load_data_nonempty_iff
                  sample_read_csv sample_to_datetime "legacy.csv")).
  exists sample_raw. split; [| split].
  - right. split; [eexists |]; reflexivity.
  - split; [reflexivity |]. eexists. reflexivity.
  - discriminate.
Defined.

(** C4, as stated, fails: a file that holds the header line and no data is
    readable and its Date column parses, yet the loader returns an empty
    table. *)
Lemma load_data_empty_on_header_only_file :
  ~ (forall (read_csv : string -> Encoding -> Outcome RawFrame)
            (to_datetime : list (option string) -> Outcome (list Timestamp))
            (file_path : string),
       returns_nonempty (load_data read_csv to_datetime file_path) <->
       exists raw,
         readable read_csv file_path raw /\ Date_parseable to_datetime raw).
Proof.
  intros Claim.
  destruct (Claim sample_read_csv sample_to_datetime "header_only.csv")
    as [_ Back].
  destruct Back as [df [H NE]].
  - exists sample_header_only. split.
    + left. reflexivity.
    + split; [reflexivity |]. eexists. reflexivity.
  - vm_compute in H. injection H as <-. discriminate.
Qed.

Example load_data_header_only :
  load_data sample_read_csv sample_to_datetime "header_only.csv"
  = {| load_errors := []; load_outcome := Returns [] |}.
Proof. reflexivity. Qed.

Example load_data_legacy :
  load_outcome (load_data sample_read_csv sample_to_datetime "legacy.csv")
  = Returns
      [ history_row "North" 1 (10 # 1) (21 # 2);
        forecast_row "North" 2 (11 # 1) (23 # 2) (10 # 1) (12 # 1) ].
Proof. reflexivity. Qed.

(** * Further properties *)

(** ** Areas and filtered frames *)

Lemma NoDup_all_areas (df : DataFrame) : NoDup (all_areas df).
Proof.
  unfold all_areas.
  apply (Permutation_NoDup (Permutation_sym (sorted_perm _))), NoDup_unique.
Qed.

Lemma flat_map_filter_area_nil (keys : list string) :
  flat_map (filter_area []) keys = [].
Proof. induction keys as [|k keys IH]; simpl; [reflexivity | exact IH]. Qed.

Lemma flat_map_filter_area_cons (r : Row) (df : DataFrame) (keys : list string) :
  NoDup keys ->
  Permutation
    (flat_map (filter_area (r :: df)) keys)
    (if existsb (String.eqb (Area r)) keys
     then r :: flat_map (filter_area df) keys
     else flat_map (filter_area df) keys).
Proof.
  induction keys as [|k keys IH]; intros ND; [reflexivity |].
  inversion ND as [|? ? Hk ND']; subst. specialize (IH ND').
  cbn [flat_map existsb]. unfold filter_area at 1. cbn [filter].
  fold (filter_area df k).
  destruct (String.eqb_spec (Area r) k) as [E | N]; cbn [orb].
  - assert (X : existsb (String.eqb (Area r)) keys = false).
    { destruct (existsb _ keys) eqn:X; [| reflexivity].
      apply existsb_exists in X. destruct X as [k' [I E']].
      apply String.eqb_eq in E'. congruence. }
    rewrite X in IH. simpl. constructor. now apply Permutation_app_head.
  - destruct (existsb (String.eqb (Area r)) keys).
    + rewrite IH. symmetry. apply Permutation_middle.
    + now apply Permutation_app_head.
Qed.

Lemma partition_by_keys (df : DataFrame) (keys : list string) :
  NoDup keys ->
  (forall r, In r df -> In (Area r) keys) ->
  Permutation df (flat_map (filter_area df) keys).
Proof.
  intros ND. induction df as [|r df IH]; intros Cover.
  - now rewrite flat_map_filter_area_nil.
  - rewrite (flat_map_filter_area_cons r df keys ND).
    assert (X : existsb (String.eqb (Area r)) keys = true).
    { apply existsb_exists. exists (Area r). split.
      - apply Cover. now left.
      - apply String.eqb_refl. }
    rewrite X. constructor. apply IH. intros r' H. apply Cover. now right.
Qed.

(** X1.  On a table whose Area cells are text, the filtered frames of the
    selector's options, concatenated in the order of the options, are a
    permutation of the table: each row lies in the filtered frame of exactly
    one option. *)
Theorem areas_partition_table (df : DataFrame) :
  Permutation df (flat_map (filter_area df) (all_areas df)).
Proof.
  apply partition_by_keys; [apply NoDup_all_areas |].
  intros r H. apply in_all_areas. now exists r.
Qed.

Lemma filter_area_nil_iff (df : DataFrame) (a : string) :
  filter_area df a = [] <-> ~ In a (all_areas df).
Proof.
  rewrite in_all_areas. split.
  - intros E [r [H A]].
    assert (I : In r (filter_area df a)) by (apply in_filter_area; tauto).
    rewrite E in I. destruct I.
  - intros No. destruct (filter_area df a) as [|r l] eqn:E; [reflexivity |].
    exfalso. apply No. exists r. apply in_filter_area. rewrite E. now left.
Qed.

(** X2.  The filtered frame is empty exactly for an Area that is not among
    the selector's options; the chart is then composed all the same, out of
    an empty band layer and an empty lines layer, and draws no line and no
    marker. *)
Theorem unknown_area_renders_empty_layers (df : DataFrame) (a : string) :
  (out_df_filtered (transformer_output df a) = [] <-> ~ In a (all_areas df)) /\
  (~ In a (all_areas df) ->
   chart (transformer_output df a) = [ci_band []; lines []] /\
   drawn_lines (chart (transformer_output df a)) = [] /\
   marker_positions (chart (transformer_output df a)) = []).
Proof.
  split; [apply filter_area_nil_iff |].
  intros No. apply filter_area_nil_iff in No.
  unfold transformer_output, chart. simpl. rewrite No. simpl. tauto.
Qed.

Lemma unknown_area_renders_empty_layers_witness :
  chart (transformer_output sample_table "East") = [ci_band []; lines []] /\
  drawn_lines (chart (transformer_output sample_table "East")) = [] /\
  marker_positions (chart (transformer_output sample_table "East")) = [].
Proof.
  apply (proj2 (unknown_area_renders_empty_layers sample_table "East")).
  vm_compute. intros [H | [H | [H | []]]]; discriminate.
Defined.

(** X3.  Filtering a filtered frame again gives the frame back when the Area
    is the same and the empty frame when it differs; so the transformer run
    on the raw-data preview of an Area reproduces its own output. *)
Theorem filter_area_twice (df : DataFrame) (a b : string) :
  filter_area (filter_area df a) b
    = (if String.eqb a b then filter_area df a else []) /\
  transformer_output (filter_area df a) a = transformer_output df a.
Proof.
  assert (F : forall b, filter_area (filter_area df a) b
                        = if String.eqb a b then filter_area df a else []).
  { intros c. unfold filter_area. induction df as [|r df IH]; simpl.
    - now destruct (String.eqb a c).
    - destruct (String.eqb_spec (Area r) a) as [E | N]; simpl.
      + rewrite IH, E. destruct (String.eqb a c); reflexivity.
      + exact IH. }
  split; [apply F |].
  unfold transformer_output. rewrite F, String.eqb_refl. reflexivity.
Qed.

(** ** The marker and the band *)

Lemma forecast_start_date_Some_has_forecast (f : DataFrame) (d : Timestamp) :
  forecast_start_date f = Some d -> has_forecast f.
Proof.
  intros E. apply has_forecast_series. unfold forecast_start_date in E.
  destruct (empty (forecast_start_date_series f)); [discriminate | reflexivity].
Qed.

(** X4.  A forecast start date is always the Date of some row of the filtered
    frame: the marker never sits at a date that is not in the data. *)
Theorem forecast_start_date_is_row_date (df : DataFrame) (a : string) (d : Timestamp) :
  forecast_start_date (filter_area df a) = Some d ->
  exists r, In r df /\ Area r = a /\ Date r = d.
Proof.
  intros E. set (f := filter_area df a) in *.
  assert (HF := forecast_start_date_Some_has_forecast f d E).
  assert (R : exists r, In r f /\ Date r = d).
  { destruct (forecast_start_date_cases f HF) as [[NE E'] | [_ E']];
      rewrite E' in E; injection E as <-.
    - now destruct (series_max_LastDateBefore f _ NE) as [R _].
    - destruct (series_min_MinForecastDate f HF) as [[r [H [_ D]]] _].
      now exists r. }
  destruct R as [r [H D]]. apply in_filter_area in H. exists r. tauto.
Qed.

Lemma forecast_start_date_is_row_date_witness :
  exists r, In r sample_table /\ Area r = "North" /\ Date r = Ts 3.
Proof.
  apply (forecast_start_date_is_row_date sample_table "North" (Ts 3)).
  reflexivity.
Defined.

(** X5.  No point of the confidence band lies before the marker: every row of
    the band subset that has a date is dated at or after the forecast start
    date. *)
Theorem band_not_before_marker (df : DataFrame) (a : string) (d z : Z) (r : Row) :
  out_forecast_start_date (transformer_output df a) = Some (Ts d) ->
  In r (out_df_ci (transformer_output df a)) ->
  Date r = Ts z ->
  d <= z.
Proof.
  simpl. set (f := filter_area df a). intros E Hr D.
  assert (HF := forecast_start_date_Some_has_forecast f _ E).
  unfold dropna_Prophet_Forecast in Hr. apply filter_In in Hr.
  destruct Hr as [Hr N].
  destruct (series_min_MinForecastDate f HF) as [_ Low].
  specialize (Low r Hr N). rewrite D in Low.
  destruct Low as [Low | Low]; [discriminate |].
  destruct (forecast_start_date_cases f HF) as [[NE E'] | [_ E']];
    rewrite E' in E.
  - destruct (series_max_LastDateBefore f _ NE) as [_ [L _]].
    injection E as E. rewrite E in L.
    destruct (series_min (forecast_start_date_series f)); simpl in *; [tauto | lia].
  - injection E as E. rewrite E in Low. simpl in Low. exact Low.
Qed.

Lemma band_not_before_marker_witness : 3 <= 5.
Proof.
  apply (band_not_before_marker sample_table "North" 3 5
           (forecast_row "North" 5 (14 # 1) (29 # 2) (12 # 1) (16 # 1)));
    [reflexivity | simpl; tauto | reflexivity].
Defined.

(** X6.  The band and the marker come together: the band has points exactly
    when the chart has a marker, which is exactly when the selected Area has
    a forecast value.  The marker layer, when present, is the third and
    topmost of three layers; otherwise the chart has two. *)
Theorem marker_iff_band (df : DataFrame) (a : string) :
  (band_points (chart (transformer_output df a)) <> [] <->
   has_forecast (filter_area df a)) /\
  (marker_positions (chart (transformer_output df a)) <> [] <->
   has_forecast (filter_area df a)) /\
  (has_forecast (filter_area df a) ->
   layer_index is_v_line (chart (transformer_output df a)) = Some 2%nat /\
   List.length (chart (transformer_output df a)) = 3%nat) /\
  (~ has_forecast (filter_area df a) ->
   layer_index is_v_line (chart (transformer_output df a)) = None /\
   List.length (chart (transformer_output df a)) = 2%nat).
Proof.
  set (f := filter_area df a).
  rewrite band_points_chart, marker_positions_chart.
  unfold chart. simpl out_df_ci. simpl out_forecast_start_date. fold f.
  pose proof (dropna_nil_iff f) as B.
  pose proof (forecast_start_date_None f) as M.
  destruct (forecast_start_date f) as [d |] eqn:E.
  - assert (HF := forecast_start_date_Some_has_forecast f d E).
    split; [| split; [| split]].
    + split; [intros _; exact HF | intros _ Z; apply B in Z; tauto].
    + split; [intros _; exact HF | discriminate].
    + intros _. split; reflexivity.
    + tauto.
  - assert (No : ~ has_forecast f) by now apply M.
    split; [| split; [| split]].
    + split; [intros X; exfalso; apply X; now apply B | tauto].
    + split; [intros X; now destruct X | tauto].
    + tauto.
    + intros _. split; reflexivity.
Qed.

Lemma marker_iff_band_witness :
  layer_index is_v_line (chart (transformer_output sample_table "South")) = Some 2%nat /\
  List.length (chart (transformer_output sample_table "South")) = 3%nat.
Proof.
  apply (proj1 (proj2 (proj2 (marker_iff_band sample_table "South")))).
  exists (forecast_row "South" 4 (7 # 1) (15 # 2) (6 # 1) (8 # 1)).
  split; [simpl; tauto | reflexivity].
Defined.

Lemma has_forecast_same_rows (f f' : DataFrame) :
  (forall r, In r f <-> In r f') -> has_forecast f -> has_forecast f'.
Proof. intros S [r [H N]]. exists r. split; [now apply S | exact N]. Qed.

Lemma MinForecastDate_same_rows (f f' : DataFrame) (m : Timestamp) :
  (forall r, In r f <-> In r f') -> MinForecastDate f m -> MinForecastDate f' m.
Proof.
  intros S [[r [H [N D]]] Low]. split.
  - exists r. split; [now apply S | tauto].
  - intros r' H'. apply Low. now apply S.
Qed.

Lemma LastDateBefore_same_rows (f f' : DataFrame) (m d : Timestamp) :
  (forall r, In r f <-> In r f') -> LastDateBefore f m d -> LastDateBefore f' m d.
Proof.
  intros S [[r [H D]] [L Up]]. split; [| split; [exact L |]].
  - exists r. split; [now apply S | exact D].
  - intros r' H'. apply Up. now apply S.
Qed.

Lemma forecast_start_date_same_rows (f f' : DataFrame) :
  (forall r, In r f <-> In r f') ->
  forecast_start_date f = forecast_start_date f'.
Proof.
  intros S.
  assert (S' : forall r, In r f' <-> In r f) by (intros r; symmetry; apply S).
  destruct (forecast_start_date f) as [d |] eqn:E.
  - assert (HF := forecast_start_date_Some_has_forecast f d E).
    assert (HF' := has_forecast_same_rows f f' S HF).
    pose proof (series_min_MinForecastDate f HF) as M.
    pose proof (series_min_MinForecastDate f' HF') as M'.
    apply (MinForecastDate_same_rows f' f _ S') in M'.
    pose proof (MinForecastDate_unique f _ _ M M') as Em.
    pose proof (forecast_start_date_cases f HF) as C.
    pose proof (forecast_start_date_cases f' HF') as C'.
    cbv zeta in C, C'. rewrite <- Em in C'. clear M'.
    set (m := series_min (forecast_start_date_series f)) in *.
    destruct C as [[NE E1] | [EM E1]]; destruct C' as [[NE' E2] | [EM' E2]];
      rewrite E1 in E; rewrite E2; rewrite <- E; f_equal.
    + apply series_max_LastDateBefore in NE, NE'.
      apply (LastDateBefore_same_rows f' f _ _ S') in NE'.
      apply (LastDateBefore_unique f _ _ _ NE NE').
    + exfalso. rewrite previous_dates_empty_iff in EM'.
      apply series_max_LastDateBefore in NE.
      destruct NE as [[r [H D]] [L _]]. apply (EM' r); [now apply S |].
      now rewrite D.
    + exfalso. rewrite previous_dates_empty_iff in EM.
      apply series_max_LastDateBefore in NE'.
      destruct NE' as [[r [H D]] [L _]]. apply (EM r); [now apply S' |].
      now rewrite D.
  - symmetry. apply forecast_start_date_None. intros HF'.
    apply (proj1 (forecast_start_date_None f) E).
    now apply (has_forecast_same_rows f' f S').
Qed.

(** X7.  The forecast start date depends on which rows the table holds, not
    on their order or on repetitions: two tables with the same rows give the
    same forecast start date for every Area. *)
Theorem forecast_start_date_ignores_row_order (df df' : DataFrame) (a : string) :
  (forall r, In r df <-> In r df') ->
  out_forecast_start_date (transformer_output df a)
  = out_forecast_start_date (transformer_output df' a).
Proof.
  intros S. simpl. apply forecast_start_date_same_rows.
  intros r. rewrite !in_filter_area, S. reflexivity.
Qed.

Lemma forecast_start_date_ignores_row_order_witness :
  out_forecast_start_date (transformer_output sample_table "North")
  = out_forecast_start_date (transformer_output (rev sample_table) "North").
Proof.
  apply (forecast_start_date_ignores_row_order sample_table (rev sample_table) "North").
  intros r. apply in_rev.
Defined.

(** ** Lines over the long frame *)




Lemma filter_present_block (c : ValueColumn) (s : string) (f : DataFrame) :
  filter (fun p => String.eqb (Series p) s && notna (Value p)) (map (long_row c) f)
  = if String.eqb (column_name c) s
    then map (long_row c) (filter (fun r => notna (column_value c r)) f)
    else [].
Proof.
  induction f as [|r f IH]; simpl.
  - now destruct (String.eqb (column_name c) s).
  - rewrite IH. destruct (String.eqb (column_name c) s); simpl; [| reflexivity].
    now destruct (notna (column_value c r)).
Qed.

(** X9.  The band lies under the Prophet_Forecast line and nowhere else: the
    long-form rows of series Prophet_Forecast whose Value is present are, row
    for row, the rows of the confidence-band subset. *)
Theorem forecast_line_values_are_band_rows (df : DataFrame) (a : string) :
  filter (fun p => String.eqb (Series p) "Prophet_Forecast" && notna (Value p))
         (out_df_melted (transformer_output df a))
  = map (long_row ColProphetForecast) (out_df_ci (transformer_output df a)).
Proof.
  simpl. unfold melt. cbn [melt_cols flat_map].
  rewrite !filter_app, !filter_present_block. simpl.
  rewrite app_nil_r. reflexivity.
Qed.

(** ** What the loader reports and what it keeps *)

Lemma load_errors_convert_Date
    (to_datetime : list (option string) -> Outcome (list Timestamp))
    (raw : RawFrame) :
  load_errors (convert_Date to_datetime raw) = [].
Proof.
  unfold convert_Date. destruct (has_column "Date" raw); [| reflexivity].
  now destruct (to_datetime _).
Qed.

(** X10.  The loader reports an error only together with an empty table, and
    only after both reads have failed, the first with a decoding error: it
    never reports and raises, never reports and returns rows, and never
    reports more than one message. *)
Theorem load_data_error_message_means_empty_table
    (read_csv : string -> Encoding -> Outcome RawFrame)
    (to_datetime : list (option string) -> Outcome (list Timestamp))
    (file_path : string) :
  load_errors (load_data read_csv to_datetime file_path) = [] \/
  exists d e,
    read_csv file_path utf8 = Raises (UnicodeDecodeError d) /\
    read_csv file_path latin1 = Raises e /\
    load_data read_csv to_datetime file_path
      = {| load_errors := [error_message e]; load_outcome := Returns [] |}.
Proof.
  unfold load_data.
  destruct (read_csv file_path utf8) as [raw | e1] eqn:E1.
  - left. apply load_errors_convert_Date.
  - destruct e1 as [d | c d | c d]; try (left; reflexivity).
    destruct (read_csv file_path latin1) as [raw | e2] eqn:E2.
    + left. apply load_errors_convert_Date.
    + destruct (is_Exception e2); [right | left; reflexivity].
      exists d, e2. repeat split.
Qed.

Lemma map_assign_Date {A : Type} (g : Row -> A) (h : RawRow -> A) :
  (forall r t,
     g {| Area := raw_Area r;
          Date := t;
          Actual := raw_Actual r;
          Prophet_Train_Fitted := raw_Prophet_Train_Fitted r;
          Prophet_Forecast := raw_Prophet_Forecast r;
          Auto_arima_forcasted := raw_Auto_arima_forcasted r;
          Lower_95_CI := raw_Lower_95_CI r;
          Upper_95_CI := raw_Upper_95_CI r |} = h r) ->
  forall rows parsed, map g (assign_Date rows parsed) = map h rows.
Proof.
  intros G rows. induction rows as [|r rows IH]; intros parsed; simpl.
  - reflexivity.
  - now rewrite G, IH.
Qed.

Lemma map_Date_assign_Date (rows : list RawRow) (parsed : list Timestamp) :
  List.length parsed = List.length rows ->
  map Date (assign_Date rows parsed) = parsed.
Proof.
  revert parsed. induction rows as [|r rows IH]; intros [|t parsed]; simpl;
    try discriminate; try reflexivity.
  intros [= L]. now rewrite IH.
Qed.

(** X11.  A table the loader returns from a readable file has one row per row
    of the file, in file order, and every cell outside the Date column is
    the cell that was read; the Date column holds what [to_datetime]
    returned, when that has one entry per row. *)
Theorem load_data_keeps_cells
    (read_csv : string -> Encoding -> Outcome RawFrame)
    (to_datetime : list (option string) -> Outcome (list Timestamp))
    (file_path : string) (raw : RawFrame) (df : DataFrame) :
  readable read_csv file_path raw ->
  load_outcome (load_data read_csv to_datetime file_path) = Returns df ->
  List.length df = List.length (raw_rows raw) /\
  map Area df = map raw_Area (raw_rows raw) /\
  map Actual df = map raw_Actual (raw_rows raw) /\
  map Prophet_Train_Fitted df = map raw_Prophet_Train_Fitted (raw_rows raw) /\
  map Prophet_Forecast df = map raw_Prophet_Forecast (raw_rows raw) /\
  map Auto_arima_forcasted df = map raw_Auto_arima_forcasted (raw_rows raw) /\
  map Lower_95_CI df = map raw_Lower_95_CI (raw_rows raw) /\
  map Upper_95_CI df = map raw_Upper_95_CI (raw_rows raw) /\
  exists parsed,
    to_datetime (map raw_Date (raw_rows raw)) = Returns parsed /\
    (List.length parsed = List.length (raw_rows raw) -> map Date df = parsed).
Proof.
  intros R. rewrite (load_data_readable read_csv to_datetime file_path raw R).
  unfold convert_Date. destruct (has_column "Date" raw); [| discriminate].
  destruct (to_datetime (map raw_Date (raw_rows raw))) as [parsed | e];
    [| discriminate].
  simpl. intros [= <-]. split.
  - rewrite <- (length_map Area), (map_assign_Date Area raw_Area);
      [apply length_map | reflexivity].
  - repeat (split; [now apply map_assign_Date |]).
    exists parsed. split; [reflexivity | apply map_Date_assign_Date].
Qed.

Lemma load_data_keeps_cells_witness :
  List.length
    [ history_row "North" 1 (10 # 1) (21 # 2);
      forecast_row "North" 2 (11 # 1) (23 # 2) (10 # 1) (12 # 1) ]
  = List.length (raw_rows sample_raw).
Proof.
  apply (load_data_keeps_cells sample_read_csv sample_to_datetime "legacy.csv"
           sample_raw
           [ history_row "North" 1 (10 # 1) (21 # 2);
             forecast_row "North" 2 (11 # 1) (23 # 2) (10 # 1) (12 # 1) ]).
  - right. split; [eexists |]; reflexivity.
  - reflexivity.
Defined.

(** ** Options of the selector *)

Lemma sorted_distinct_ext (l1 l2 : list string) :
  StronglySorted str_le l1 -> StronglySorted str_le l2 ->
  NoDup l1 -> NoDup l2 ->
  (forall x, In x l1 <-> In x l2) ->
  l1 = l2.
Proof.
  revert l2. induction l1 as [|x1 l1 IH]; intros [|x2 l2] S1 S2 N1 N2 Same.
  - reflexivity.
  - destruct (proj2 (Same x2)). now left.
  - destruct (proj1 (Same x1)). now left.
  - inversion S1 as [|? ? S1' A1]; inversion S2 as [|? ? S2' A2]; subst.
    inversion N1 as [|? ? I1 N1']; inversion N2 as [|? ? I2 N2']; subst.
    rewrite Forall_forall in A1, A2.
    assert (E : x1 = x2).
    { destruct (proj1 (Same x1) (or_introl eq_refl)) as [E | H1]; [now symmetry |].
      destruct (proj2 (Same x2) (or_introl eq_refl)) as [E | H2]; [exact E |].
      apply String.leb_antisym; [now apply A1 | now apply A2]. }
    subst x2. f_equal. apply IH; try assumption.
    intros x. split; intros H.
    + destruct (proj1 (Same x) (or_intror H)) as [E | H']; [| exact H'].
      subst x. contradiction.
    + destruct (proj2 (Same x) (or_intror H)) as [E | H']; [| exact H'].
      subst x. contradiction.
Qed.

(** X12.  The options of the selector depend on which Area values occur in
    the table, not on the order or the number of the rows that carry them. *)
Theorem all_areas_ignores_row_order (df df' : DataFrame) :
  (forall a, In a (map Area df) <-> In a (map Area df')) ->
  all_areas df = all_areas df'.
Proof.
  intros Same. apply sorted_distinct_ext.
  - apply sorted_StronglySorted.
  - apply sorted_StronglySorted.
  - apply NoDup_all_areas.
  - apply NoDup_all_areas.
  - intros a. rewrite !in_all_areas.
    specialize (Same a). rewrite !in_map_iff in Same.
    split; intros [r [H A]].
    + destruct (proj1 Same) as [r' [A' H']]; [now exists r | now exists r'].
    + destruct (proj2 Same) as [r' [A' H']]; [now exists r | now exists r'].
Qed.

Lemma all_areas_ignores_row_order_witness :
  all_areas sample_table = all_areas (rev sample_table ++ sample_table).
Proof.
  apply (all_areas_ignores_row_order sample_table (rev sample_table ++ sample_table)).
  intros a. rewrite map_app, map_rev, in_app_iff, <- in_rev. tauto.
Defined.

(** ** Loader and page together *)

(** X14.  In a run of the script that reaches the page, an error message and
    page content exclude each other: either the loader reported nothing, or
    it reported one message and the page below it is blank. *)
Theorem run_script_error_or_content
    (read_csv : string -> Encoding -> Outcome RawFrame)
    (to_datetime : list (option string) -> Outcome (list Timestamp))
    (picked : option nat) (errors : list string) (shown : Page) :
  run_script read_csv to_datetime picked = ScriptPage errors shown ->
  errors = [] \/
  (shown = PageBlank /\
   exists d e,
     read_csv FILE_NAME utf8 = Raises (UnicodeDecodeError d) /\
     read_csv FILE_NAME latin1 = Raises e /\
     errors = [error_message e]).
Proof.
  unfold run_script.
  destruct (load_data_error_message_means_empty_table
              read_csv to_datetime FILE_NAME) as [E | [d [e [E1 [E2 E]]]]].
  - destruct (load_outcome _); [| discriminate].
    intros [= <- _]. now left.
  - rewrite E. simpl. intros [= <- <-]. right.
    split; [reflexivity |]. now exists d, e.
Qed.

Lemma run_script_error_or_content_witness :
  [] = @nil string \/
  (page (assign_Date (raw_rows sample_raw) [Ts 1; Ts 2]) None = PageBlank /\
   exists d e,
     sample_read_table FILE_NAME utf8 = Raises (UnicodeDecodeError d) /\
     sample_read_table FILE_NAME latin1 = Raises e /\
     [] = [error_message e]).
Proof.
  apply (run_script_error_or_content sample_read_table sample_to_datetime None).
  reflexivity.
Defined.

(** X15.  The script draws a chart only from a table with rows that it read
    from [FILE_NAME]: when the page shows a chart, the file was readable, no
    error was reported, and every row of the raw-data preview is a row of
    the loaded table. *)
Theorem run_script_chart_from_file
    (read_csv : string -> Encoding -> Outcome RawFrame)
    (to_datetime : list (option string) -> Outcome (list Timestamp))
    (picked : option nat) (errors : list string)
    (title : string) (layers : list Layer) (preview : DataFrame) :
  run_script read_csv to_datetime picked
    = ScriptPage errors (PageChart title layers preview) ->
  errors = [] /\
  exists raw df a,
    readable read_csv FILE_NAME raw /\
    Date_parseable to_datetime raw /\
    load_outcome (load_data read_csv to_datetime FILE_NAME) = Returns df /\
    List.length df = List.length (raw_rows raw) /\
    selected_area df picked = Some a /\
    title = ("Forecast Analysis for " ++ a)%string /\
    layers = chart (transformer_output df a) /\
    preview = filter_area df a.
Proof.
  intros Run.
  destruct (run_script_error_or_content _ _ _ _ _ Run) as [E | [B _]];
    [| discriminate].
  split; [exact E |]. unfold run_script in Run.
  destruct (load_outcome (load_data read_csv to_datetime FILE_NAME))
    as [df | e] eqn:L; [| discriminate].
  injection Run as _ P. unfold page in P.
  destruct (empty df) eqn:NE; [discriminate |]. simpl in P.
  assert (RN : returns_nonempty (load_data read_csv to_datetime FILE_NAME))
    by (exists df; split; assumption).
  apply load_data_nonempty_iff in RN. destruct RN as [raw [R [DP _]]].
  destruct (load_data_keeps_cells _ _ _ _ _ R L) as [Len _].
  destruct (selected_area df picked) as [a |] eqn:Sel; simpl in P;
    [| discriminate].
  destruct (String.eqb a ""); simpl in P; [discriminate |].
  injection P as <- <- <-.
  exists raw, df, a.
  split; [exact R |]. split; [exact DP |]. split; [reflexivity |].
  split; [exact Len |]. split; [exact Sel |]. repeat split.
Qed.

Lemma run_script_chart_from_file_witness :
  [] = @nil string /\
  exists raw df a,
    readable sample_read_table FILE_NAME raw /\
    Date_parseable sample_to_datetime raw /\
    load_outcome (load_data sample_read_table sample_to_datetime FILE_NAME)
      = Returns df /\
    List.length df = List.length (raw_rows raw) /\
    selected_area df None = Some a /\
    "Forecast Analysis for North" = ("Forecast Analysis for " ++ a)%string /\
    chart (transformer_output
             (assign_Date (raw_rows sample_raw) [Ts 1; Ts 2]) "North")
      = chart (transformer_output df a) /\
    filter_area (assign_Date (raw_rows sample_raw) [Ts 1; Ts 2]) "North"
      = filter_area df a.
Proof.
  apply (run_script_chart_from_file sample_read_table sample_to_datetime None).
  reflexivity.
Defined.
